(** * paddle/distributed/auto_parallel/hepler.py

    A shallow embedding of [ProxyLayer], [BuildInfo] and [ProgramHelper].

    Python objects are records, attribute assignment is a state update, and
    every method is a computation in a small state / exception / event
    monad: a raised exception keeps the mutations made before it, and each
    call that leaves the file (the wrapped model, the loss, the metrics, the
    logger, [to_static]) is recorded as an event. *)

From stdpp Require Import gmap strings list fin_maps.

(** ** Objects owned by the host framework or by the user *)

(** The types the file only passes around. *)
Class Signature := {
  Var : Type;      (* a Variable of the program being built *)
  Spec : Type;     (* an InputSpec *)
  Layer : Type;    (* the user's model, a paddle.nn.Layer *)
  LossFn : Type;   (* the user's loss function *)
  Metric : Type    (* a paddle.metric.Metric *)
}.

(** What calling them returns.  None of these is defined in the file.
    They are taken as total functions of their arguments: an exception
    raised by the layer, the loss, a metric or the framework, and any
    state of theirs, is outside this model. *)
Class Framework (Sg : Signature) := {
  forward : Layer -> list Var -> list Var;      (* layer( *args ) *)
  loss_call : LossFn -> list Var -> list Var;   (* loss_func( *args ) *)
  compute : Metric -> list Var -> list Var;     (* metric.compute( *args ) *)
  to_list : list Var -> list Var;               (* utils.to_list *)
  data : Spec -> Var                            (* the feed Variable of an InputSpec *)
}.

Section Python.
Context {Sg : Signature}.

(** The values an attribute [_train], [_eval] or [_predict] of a proxy
    layer can hold: the method of the class, or what [to_static] returned
    for a function and an [input_spec]. *)
Inductive Callable :=
| BoundMethod (name : string)
| StaticFunction (function : Callable) (input_spec : list (list Spec)).

(** Handles on the programs of a static function. *)
Inductive ConcreteProgram :=
| ConcreteProgramOf (f : Callable).

Inductive Program :=
| MainProgram (cp : ConcreteProgram)
| StartupProgram (cp : ConcreteProgram).

(** Calls that leave the file, in the order they are made. *)
Inductive Event :=
| call_inner_layer (l : Layer) (args : list Var)
| call_loss_func (f : LossFn) (args : list Var)
| call_metric_compute (m : Metric) (args : list Var)
| logger_info (msg : string)
| call_to_static (function : Callable) (input_spec : list (list Spec))
| read_concrete_program (f : Callable).

Inductive exn :=
| AssertionError (msg : option string)
| AttributeError (name : string)
| TypeError.

Inductive result (A : Type) :=
| Return (a : A)
| Raise (e : exn).
#[global] Arguments Return {A} a.
#[global] Arguments Raise {A} e.

(** A method of an object of type [St] returning an [A]. *)
Definition M (St A : Type) : Type := St -> result A * St * list Event.

Definition ret {St A} (a : A) : M St A :=
  fun s => (Return a, s, []).

Definition bind {St A B} (m : M St A) (k : A -> M St B) : M St B :=
  fun s =>
    match m s with
    | (Return a, s1, t1) =>
        match k a s1 with
        | (r, s2, t2) => (r, s2, t1 ++ t2)
        end
    | (Raise e, s1, t1) => (Raise e, s1, t1)
    end.

Definition get {St} : M St St :=
  fun s => (Return s, s, []).

Definition modify {St} (f : St -> St) : M St unit :=
  fun s => (Return tt, f s, []).

Definition emit {St} (e : Event) : M St unit :=
  fun s => (Return tt, s, [e]).

Definition raise {St A} (e : exn) : M St A :=
  fun s => (Raise e, s, []).

(** [assert cond, msg] *)
Definition assert {St} (cond : bool) (msg : option string) : M St unit :=
  if cond then ret tt else raise (AssertionError msg).

(** Run a method of a part [P] of an object [St]. *)
Definition zoom {St P A} (proj : St -> P) (upd : P -> St -> St)
    (m : M P A) : M St A :=
  fun s =>
    match m (proj s) with
    | (r, p, t) => (r, upd p s, t)
    end.

Definition outcome {St A} (x : result A * St * list Event) : result A := x.1.1.
Definition final {St A} (x : result A * St * list Event) : St := x.1.2.
Definition events {St A} (x : result A * St * list Event) : list Event := x.2.
End Python.

Notation "x <- m ;; k" := (bind m (fun x => k))
  (at level 100, m at next level, right associativity).
Notation "m ;; k" := (bind m (fun _ => k))
  (at level 100, right associativity).

(** ['train', 'eval', 'predict'] *)
Definition modes : list string := ["train"; "eval"; "predict"].

(** ** class ProxyLayer *)
Module ProxyLayer.
Section ProxyLayer.
Context {Sg : Signature} {Fw : Framework Sg}.

Record t := Build {
  inner_layer : Layer;
  loss_func : option LossFn;
  metrics : list Metric;
  mode : option string;
  input_vars : list Var;
  label_vars : list Var;
  output_vars : list Var;
  loss_vars : list Var;
  metric_vars : list Var;
  (* instance attributes bound with setattr; they shadow the methods *)
  attrs : gmap string Callable
}.

(** Attribute assignments, [self.mode = v] and the like. *)
Definition with_mode (v : option string) (self : t) : t :=
  Build (inner_layer self) (loss_func self) (metrics self) v
    (input_vars self) (label_vars self) (output_vars self)
    (loss_vars self) (metric_vars self) (attrs self).

Definition with_input_vars (v : list Var) (self : t) : t :=
  Build (inner_layer self) (loss_func self) (metrics self) (mode self)
    v (label_vars self) (output_vars self)
    (loss_vars self) (metric_vars self) (attrs self).

Definition with_label_vars (v : list Var) (self : t) : t :=
  Build (inner_layer self) (loss_func self) (metrics self) (mode self)
    (input_vars self) v (output_vars self)
    (loss_vars self) (metric_vars self) (attrs self).

Definition with_output_vars (v : list Var) (self : t) : t :=
  Build (inner_layer self) (loss_func self) (metrics self) (mode self)
    (input_vars self) (label_vars self) v
    (loss_vars self) (metric_vars self) (attrs self).

Definition with_loss_vars (v : list Var) (self : t) : t :=
  Build (inner_layer self) (loss_func self) (metrics self) (mode self)
    (input_vars self) (label_vars self) (output_vars self)
    v (metric_vars self) (attrs self).

Definition with_metric_vars (v : list Var) (self : t) : t :=
  Build (inner_layer self) (loss_func self) (metrics self) (mode self)
    (input_vars self) (label_vars self) (output_vars self)
    (loss_vars self) v (attrs self).

Definition with_attrs (v : gmap string Callable) (self : t) : t :=
  Build (inner_layer self) (loss_func self) (metrics self) (mode self)
    (input_vars self) (label_vars self) (output_vars self)
    (loss_vars self) (metric_vars self) v.

Definition __init__ (layer : Layer) (loss_func : option LossFn)
    (metrics : list Metric) : t :=
  {| inner_layer := layer;
     loss_func := loss_func;
     metrics := metrics;
     mode := None;
     input_vars := [];
     label_vars := [];
     output_vars := [];
     loss_vars := [];
     metric_vars := [];
     attrs := ∅ |}.

(** [self.inner_layer( *inputs )] *)
Definition inner_layer_call (inputs : list Var) : M t (list Var) :=
  self <- get ;;
  emit (call_inner_layer (inner_layer self) inputs) ;;
  ret (forward (inner_layer self) inputs).

Definition _prepare (outputs labels : list Var) : list Var :=
  to_list outputs ++ to_list labels.

Definition call_loss (inputs : list Var) : M t (list Var) :=
  self <- get ;;
  match loss_func self with
  | Some f =>
      emit (call_loss_func f inputs) ;;
      ret (loss_call f inputs)
  | None => ret []
  end.

(** The [for metric in self.metrics] loop, [outs] being the list built
    so far. *)
Fixpoint call_metrics_loop (ms : list Metric) (inputs outs : list Var)
    : M t (list Var) :=
  match ms with
  | [] => ret outs
  | metric :: rest =>
      emit (call_metric_compute metric inputs) ;;
      call_metrics_loop rest inputs (outs ++ compute metric inputs)
  end.

Definition call_metrics (inputs : list Var) : M t (list Var) :=
  self <- get ;;
  call_metrics_loop (metrics self) inputs [].

Definition _train (inputs labels : list Var) : M t unit :=
  modify (with_input_vars inputs) ;;
  modify (with_label_vars labels) ;;
  out <- inner_layer_call inputs ;;
  modify (with_output_vars out) ;;
  self <- get ;;
  let new_inputs := _prepare (output_vars self) labels in
  loss <- call_loss new_inputs ;;
  modify (with_loss_vars loss) ;;
  ms <- call_metrics new_inputs ;;
  modify (with_metric_vars ms).

Definition _eval (inputs labels : list Var) : M t unit :=
  modify (with_input_vars inputs) ;;
  modify (with_label_vars labels) ;;
  out <- inner_layer_call inputs ;;
  modify (with_output_vars out) ;;
  self <- get ;;
  let new_inputs := _prepare (output_vars self) labels in
  loss <- call_loss new_inputs ;;
  modify (with_loss_vars loss) ;;
  ms <- call_metrics new_inputs ;;
  modify (with_metric_vars ms).

Definition _predict (inputs : list Var) : M t unit :=
  modify (with_input_vars inputs) ;;
  out <- inner_layer_call inputs ;;
  modify (with_output_vars out).

(** The methods [getattr] can find on the class. *)
Definition methods : list string := ["_train"; "_eval"; "_predict"].

(** [getattr(self, name)] for the name of a mode function. *)
Definition getattr (name : string) : M t Callable :=
  self <- get ;;
  match attrs self !! name with
  | Some f => ret f
  | None =>
      if bool_decide (name ∈ methods) then ret (BoundMethod name)
      else raise (AttributeError name)
  end.

(** [setattr(self, name, f)] *)
Definition setattr (name : string) (f : Callable) : M t unit :=
  modify (fun self => with_attrs (<[name := f]> (attrs self)) self).
End ProxyLayer.
End ProxyLayer.

(** ** paddle.jit.to_static *)
Module StaticFunction.
Section StaticFunction.
Context {Sg : Signature} {Fw : Framework Sg}.

(** Modelled from the spec: [to_static] is the external framework
    primitive the imperative-to-graph tracing is delegated to; it is
    imported, not defined, by the file.  It is lazy (the note in
    [build_program]): the call only records the function and the
    [input_spec] it was given. *)
Definition to_static {St} (function : Callable)
    (input_spec : list (list Spec)) : M St Callable :=
  emit (call_to_static function input_spec) ;;
  ret (StaticFunction function input_spec).

(** Running a mode function of the proxy layer on its arguments; a static
    function runs the function it wraps. *)
Fixpoint call (f : Callable) (args : list (list Var))
    : M ProxyLayer.t unit :=
  match f with
  | BoundMethod name =>
      if bool_decide (name = "_train") then
        match args with
        | [inputs; labels] => ProxyLayer._train inputs labels
        | _ => raise TypeError
        end
      else if bool_decide (name = "_eval") then
        match args with
        | [inputs; labels] => ProxyLayer._eval inputs labels
        | _ => raise TypeError
        end
      else if bool_decide (name = "_predict") then
        match args with
        | [inputs] => ProxyLayer._predict inputs
        | _ => raise TypeError
        end
      else raise (AttributeError name)
  | StaticFunction function _ => call function args
  end.

(** Modelled from the spec: reading [concrete_program] of a static
    function triggers the tracing, which runs the wrapped function once
    on the feed variables of its [input_spec]; a plain method has no such
    attribute. *)
Definition concrete_program (f : Callable)
    : M ProxyLayer.t ConcreteProgram :=
  match f with
  | StaticFunction function input_spec =>
      emit (read_concrete_program f) ;;
      call function (map (map data) input_spec) ;;
      ret (ConcreteProgramOf f)
  | BoundMethod _ => raise (AttributeError "concrete_program")
  end.
End StaticFunction.
End StaticFunction.

(** ** class BuildInfo *)
Module BuildInfo.
Record t := Build {
  mode : option string;
  state : bool
}.

Definition __init__ (mode : option string) (state : bool) : t :=
  {| mode := mode; state := state |}.

Definition has_cache (self : t) (mode' : string) : bool :=
  bool_decide (mode self = Some mode') && bool_decide (state self = true).
End BuildInfo.

(** ** class ProgramHelper *)
Module ProgramHelper.
Section ProgramHelper.
Context {Sg : Signature} {Fw : Framework Sg}.

(** [_logger] is left out: what is logged is an event. *)
Record t := Build {
  proxy_layer : ProxyLayer.t;
  inputs_spec : list Spec;
  labels_spec : list Spec;
  build_info : BuildInfo.t
}.

Definition with_proxy_layer (v : ProxyLayer.t) (self : t) : t :=
  Build v (inputs_spec self) (labels_spec self) (build_info self).

(** A method of [self.proxy_layer]. *)
Definition on_proxy_layer {A} (m : M ProxyLayer.t A) : M t A :=
  zoom proxy_layer with_proxy_layer m.

Definition __init__ (layer : Layer) (loss_func : option LossFn)
    (metrics : list Metric) (inputs_spec labels_spec : list Spec) : t :=
  {| proxy_layer := ProxyLayer.__init__ layer loss_func metrics;
     inputs_spec := inputs_spec;
     labels_spec := labels_spec;
     build_info := BuildInfo.__init__ None false |}.

Definition static_func : M t Callable :=
  self <- get ;;
  match ProxyLayer.mode (proxy_layer self) with
  | Some mode =>
      assert (bool_decide (mode ∈ modes))
        (Some "Please call build_program(mode) firstly.") ;;
      let func_name := "_" +:+ mode in
      on_proxy_layer (ProxyLayer.getattr func_name)
  | None =>
      raise (AssertionError (Some "Please call build_program(mode) firstly."))
  end.

Definition build_program (mode : string) : M t unit :=
  assert (bool_decide (mode ∈ modes)) None ;;
  self <- get ;;
  if BuildInfo.has_cache (build_info self) mode then
    emit (logger_info ("Already build program with mode = " +:+ mode
                       +:+ ", use cached program.")) ;;
    ret tt
  else
    emit (logger_info ("start to build program for mode = " +:+ mode
                       +:+ ".")) ;;
    on_proxy_layer (modify (ProxyLayer.with_mode (Some mode))) ;;
    self <- get ;;
    let input_spec :=
      if bool_decide (mode ≠ "predict")
      then [inputs_spec self; labels_spec self]
      else [inputs_spec self] in
    f <- static_func ;;
    static_func <- StaticFunction.to_static f input_spec ;;
    let func_name := "_" +:+ mode in
    on_proxy_layer (ProxyLayer.setattr func_name static_func) ;;
    g <- on_proxy_layer (ProxyLayer.getattr func_name) ;;
    on_proxy_layer (StaticFunction.concrete_program g) ;;
    ret tt.

Definition concrete_program : M t ConcreteProgram :=
  f <- static_func ;;
  on_proxy_layer (StaticFunction.concrete_program f).

Definition main_program : M t Program :=
  cp <- concrete_program ;;
  ret (MainProgram cp).

Definition startup_program : M t Program :=
  cp <- concrete_program ;;
  ret (StartupProgram cp).

Definition input_vars (self : t) : list Var :=
  to_list (ProxyLayer.input_vars (proxy_layer self)).

Definition output_vars (self : t) : list Var :=
  to_list (ProxyLayer.output_vars (proxy_layer self)).

Definition label_vars (self : t) : list Var :=
  to_list (ProxyLayer.label_vars (proxy_layer self)).

Definition loss_vars (self : t) : list Var :=
  to_list (ProxyLayer.loss_vars (proxy_layer self)).

Definition metric_vars (self : t) : list Var :=
  to_list (ProxyLayer.metric_vars (proxy_layer self)).
End ProgramHelper.
End ProgramHelper.

(** ** Vocabulary of the statements *)
Section Vocabulary.
Context {Sg : Signature} {Fw : Framework Sg}.
Import ProxyLayer.

(** The events of the loss and metric steps on [new_inputs]. *)
Definition loss_events (self : ProxyLayer.t) (new_inputs : list Var)
    : list Event :=
  match loss_func self with
  | Some f => [call_loss_func f new_inputs]
  | None => []
  end.

Definition metric_events (self : ProxyLayer.t) (new_inputs : list Var)
    : list Event :=
  map (fun m => call_metric_compute m new_inputs) (metrics self).

(** The proxy layer after the four steps of [_train] and [_eval]. *)
Definition after_forward_loss_metrics (inputs labels : list Var)
    (self : ProxyLayer.t) : ProxyLayer.t :=
  let out := forward (inner_layer self) inputs in
  let new_inputs := _prepare out labels in
  {| inner_layer := inner_layer self;
     loss_func := loss_func self;
     metrics := metrics self;
     mode := mode self;
     input_vars := inputs;
     label_vars := labels;
     output_vars := out;
     loss_vars := match loss_func self with
                  | Some f => loss_call f new_inputs
                  | None => []
                  end;
     metric_vars := concat (map (fun m => compute m new_inputs) (metrics self));
     attrs := attrs self |}.

(** Whether an event is a call of the loss function or of a metric. *)
Definition is_loss_or_metric_call (e : Event) : bool :=
  match e with
  | call_loss_func _ _ | call_metric_compute _ _ => true
  | _ => false
  end.

(** What [getattr(proxy, name)] finds for the name of a mode function:
    the bound attribute if there is one, the method of the class
    otherwise. *)
Definition mode_function (name : string) (proxy : ProxyLayer.t)
    : Callable :=
  default (BoundMethod name) (attrs proxy !! name).

(** [f] is the method [name] under any number of [to_static] wrappers. *)
Fixpoint wraps (name : string) (f : Callable) : Prop :=
  match f with
  | BoundMethod n => n = name
  | StaticFunction g _ => wraps name g
  end.

(** Every bound attribute is a mode function, wrapping its own method. *)
Definition attrs_ok (proxy : ProxyLayer.t) : Prop :=
  forall name f,
    attrs proxy !! name = Some f -> name ∈ methods /\ wraps name f.

(** What running a mode function leaves alone. *)
Definition same_frame (p q : ProxyLayer.t) : Prop :=
  inner_layer q = inner_layer p
  /\ loss_func q = loss_func p
  /\ metrics q = metrics p
  /\ mode q = mode p
  /\ attrs q = attrs p.

(** The helper [build_program(mode)] traces from: the mode is set and the
    static function is bound. *)
Definition ready_to_trace (mode : string) (f : Callable)
    (input_spec : list (list Spec)) (self : ProgramHelper.t)
    : ProxyLayer.t :=
  let proxy :=
    ProxyLayer.with_mode (Some mode) (ProgramHelper.proxy_layer self) in
  ProxyLayer.with_attrs
    (<["_" +:+ mode := StaticFunction f input_spec]> (ProxyLayer.attrs proxy))
    proxy.

(** The helpers a client can get: one made by [__init__], then used
    through [build_program] and the program properties. *)
Inductive reachable : ProgramHelper.t -> Prop :=
| reachable_init layer loss_func metrics inputs_spec labels_spec :
    reachable
      (ProgramHelper.__init__ layer loss_func metrics inputs_spec labels_spec)
| reachable_build_program mode self :
    reachable self ->
    reachable (final (ProgramHelper.build_program mode self))
| reachable_concrete_program self :
    reachable self ->
    reachable (final (ProgramHelper.concrete_program self))
| reachable_main_program self :
    reachable self ->
    reachable (final (ProgramHelper.main_program self))
| reachable_startup_program self :
    reachable self ->
    reachable (final (ProgramHelper.startup_program self)).

(** The invariant of the reachable helpers. *)
Definition helper_ok (self : ProgramHelper.t) : Prop :=
  ProgramHelper.build_info self = BuildInfo.__init__ None false
  /\ attrs_ok (ProgramHelper.proxy_layer self).

Definition please_call_build_program : exn :=
  AssertionError (Some "Please call build_program(mode) firstly.").
End Vocabulary.

(** ** A small concrete framework, to run the methods on *)
Module Toy.
#[global] Instance sg : Signature :=
  {| Var := string; Spec := string; Layer := string;
     LossFn := string; Metric := string |}.

Definition tag (suffix : string) (name : string) (args : list string)
    : list string :=
  [name +:+ suffix].

#[global] Instance fw : Framework sg :=
  Build_Framework sg (tag ".out") (tag ".loss") (tag ".value")
    (fun v => v) (fun s => s).

Definition helper : ProgramHelper.t :=
  ProgramHelper.__init__ (Sg := sg) "net" (Some "mse") ["acc"] ["x"] ["y"].

(** A proxy layer without loss function and metrics. *)
Definition bare : ProxyLayer.t :=
  ProxyLayer.__init__ (Sg := sg) "net" None [].
End Toy.

(** ** ProxyLayer.set_mode

    [set_mode] also assigns [training], an attribute the proxy layer has
    from its base class; no other method of the file reads or writes it, so
    it is kept beside the record of the proxy layer. *)
Module Training.
Section Training.
Context {Sg : Signature}.

Record t := Build {
  proxy : ProxyLayer.t;
  training : bool
}.

Definition set_mode (mode : option string) : M t unit :=
  modify (fun self =>
            Build (ProxyLayer.with_mode mode (proxy self)) (training self)) ;;
  modify (fun self =>
            Build (proxy self) (bool_decide (mode = Some "train"))).
End Training.
End Training.

(** ** More vocabulary *)
Section Tracing.
Context {Sg : Signature} {Fw : Framework Sg}.

(** The [input_spec] that [build_program(mode)] passes to [to_static]. *)
Definition input_spec_of (mode : string) (self : ProgramHelper.t)
    : list (list Spec) :=
  if bool_decide (mode ≠ "predict")
  then [ProgramHelper.inputs_spec self; ProgramHelper.labels_spec self]
  else [ProgramHelper.inputs_spec self].

(** Two proxy layers hold the same five variable lists. *)
Definition same_vars (p q : ProxyLayer.t) : Prop :=
  ProxyLayer.input_vars q = ProxyLayer.input_vars p
  /\ ProxyLayer.label_vars q = ProxyLayer.label_vars p
  /\ ProxyLayer.output_vars q = ProxyLayer.output_vars p
  /\ ProxyLayer.loss_vars q = ProxyLayer.loss_vars p
  /\ ProxyLayer.metric_vars q = ProxyLayer.metric_vars p.

(** The static functions bound on the helper were made from its specs, and
    the proxy layer is what tracing its current mode leaves. *)
Definition settled (self : ProgramHelper.t) : Prop :=
  (forall m g,
      m ∈ modes ->
      ProxyLayer.attrs (ProgramHelper.proxy_layer self) !! ("_" +:+ m)
        = Some g ->
      exists f, g = StaticFunction f (input_spec_of m self))
  /\ (forall m,
        ProxyLayer.mode (ProgramHelper.proxy_layer self) = Some m ->
        final (StaticFunction.call (BoundMethod ("_" +:+ m))
                 (map (map data) (input_spec_of m self))
                 (ProgramHelper.proxy_layer self))
        = ProgramHelper.proxy_layer self).

(** Either nothing was built, or a valid mode is set and its static
    function is bound. *)
Definition mode_bound (self : ProgramHelper.t) : Prop :=
  match ProxyLayer.mode (ProgramHelper.proxy_layer self) with
  | None =>
      ProxyLayer.attrs (ProgramHelper.proxy_layer self) = ∅
      /\ same_vars (ProxyLayer.__init__
                      (ProxyLayer.inner_layer (ProgramHelper.proxy_layer self))
                      (ProxyLayer.loss_func (ProgramHelper.proxy_layer self))
                      (ProxyLayer.metrics (ProgramHelper.proxy_layer self)))
                   (ProgramHelper.proxy_layer self)
  | Some m =>
      m ∈ modes
      /\ exists f,
           ProxyLayer.attrs (ProgramHelper.proxy_layer self) !! ("_" +:+ m)
           = Some (StaticFunction f (input_spec_of m self))
  end.
End Tracing.

(** A helper whose [build_info] says that 'train' is built. *)
Definition cached_helper : ProgramHelper.t :=
  ProgramHelper.Build (ProgramHelper.proxy_layer Toy.helper)
    (ProgramHelper.inputs_spec Toy.helper)
    (ProgramHelper.labels_spec Toy.helper)
    (BuildInfo.__init__ (Some "train") true).

(** * Properties *)

(** ** The monad *)
Section MonadFacts.
Context {Sg : Signature}.

Lemma bind_Raise {St A B} (m : M St A) (k : A -> M St B) s e s1 t1 :
  m s = (Raise e, s1, t1) -> bind m k s = (Raise e, s1, t1).
Proof. intros Hm. unfold bind. rewrite Hm. reflexivity. Qed.
End MonadFacts.

(** ** ProxyLayer *)
Section ProxyLayerFacts.
Context {Sg : Signature} {Fw : Framework Sg}.
Import ProxyLayer.

Lemma call_metrics_loop_run ms inputs outs (self : ProxyLayer.t) :
  call_metrics_loop ms inputs outs self =
    (Return (outs ++ concat (map (fun m => compute m inputs) ms)),
     self,
     map (fun m => call_metric_compute m inputs) ms).
Proof.
  revert outs. induction ms as [|metric rest IH]; intros outs.
  - simpl. unfold ret. rewrite app_nil_r. reflexivity.
  - simpl. unfold bind at 1. simpl. rewrite IH.
    rewrite <- app_assoc. reflexivity.
Qed.

Lemma call_metrics_run inputs (self : ProxyLayer.t) :
  call_metrics inputs self =
    (Return (concat (map (fun m => compute m inputs) (metrics self))),
     self,
     map (fun m => call_metric_compute m inputs) (metrics self)).
Proof.
  unfold call_metrics, bind, get. rewrite call_metrics_loop_run.
  reflexivity.
Qed.

Lemma call_loss_run inputs (self : ProxyLayer.t) :
  call_loss inputs self =
    match loss_func self with
    | Some f => (Return (loss_call f inputs), self, [call_loss_func f inputs])
    | None => (Return [], self, [])
    end.
Proof.
  unfold call_loss, bind, get. destruct (loss_func self); reflexivity.
Qed.

Lemma _train_run inputs labels (self : ProxyLayer.t) :
  _train inputs labels self =
    (Return tt,
     after_forward_loss_metrics inputs labels self,
     call_inner_layer (inner_layer self) inputs
       :: loss_events self (_prepare (forward (inner_layer self) inputs) labels)
       ++ metric_events self (_prepare (forward (inner_layer self) inputs) labels)).
Proof.
  unfold _train, inner_layer_call, bind, get, modify, emit, ret. simpl.
  rewrite call_loss_run.
  unfold loss_events, metric_events, after_forward_loss_metrics.
  destruct self as [layer [f|] ms md iv lv ov sv mv fs]; simpl;
    rewrite call_metrics_run; simpl; rewrite ?app_nil_r; reflexivity.
Qed.

Lemma _eval_run inputs labels (self : ProxyLayer.t) :
  _eval inputs labels self =
    (Return tt,
     after_forward_loss_metrics inputs labels self,
     call_inner_layer (inner_layer self) inputs
       :: loss_events self (_prepare (forward (inner_layer self) inputs) labels)
       ++ metric_events self (_prepare (forward (inner_layer self) inputs) labels)).
Proof.
  unfold _eval, inner_layer_call, bind, get, modify, emit, ret. simpl.
  rewrite call_loss_run.
  unfold loss_events, metric_events, after_forward_loss_metrics.
  destruct self as [layer [f|] ms md iv lv ov sv mv fs]; simpl;
    rewrite call_metrics_run; simpl; rewrite ?app_nil_r; reflexivity.
Qed.

Lemma _predict_run inputs (self : ProxyLayer.t) :
  _predict inputs self =
    (Return tt,
     with_output_vars (forward (inner_layer self) inputs)
       (with_input_vars inputs self),
     [call_inner_layer (inner_layer self) inputs]).
Proof. reflexivity. Qed.
End ProxyLayerFacts.

Section ProxyLayerClaims.
Context {Sg : Signature} {Fw : Framework Sg}.
Import ProxyLayer.

(** C10: [call_loss(inputs)] returns the empty list whenever [loss_func]
    is [None] and otherwise returns [loss_func] applied to the inputs;
    [call_metrics(inputs)] returns the concatenation, in list order, of
    [metric.compute( *inputs )] over the metrics list, and the empty list
    when that list is empty.  Neither changes the proxy layer. *)
Theorem call_loss_call_metrics_return inputs (self : ProxyLayer.t) :
  (loss_func self = None ->
     outcome (call_loss inputs self) = Return [])
  /\ (forall f, loss_func self = Some f ->
        outcome (call_loss inputs self) = Return (loss_call f inputs))
  /\ outcome (call_metrics inputs self) =
       Return (concat (map (fun metric => compute metric inputs)
                           (metrics self)))
  /\ (metrics self = [] ->
        outcome (call_metrics inputs self) = Return [])
  /\ final (call_loss inputs self) = self
  /\ final (call_metrics inputs self) = self.
Proof.
  rewrite call_loss_run, call_metrics_run.
  repeat split.
  - intros ->. reflexivity.
  - intros f ->. reflexivity.
  - intros ->. reflexivity.
  - destruct (loss_func self); reflexivity.
Qed.

(** C8: [_train] and [_eval] are behaviourally equivalent: on every
    inputs, labels and proxy layer they return the same result, make the
    same calls in the same order (the inner layer, then the loss, then
    the metrics, the last two on the prepared outputs and labels) and
    leave the same proxy layer, whose five variable lists hold the saved
    inputs and labels, the outputs, the loss and the metric values. *)
Theorem _train_eval_equivalent inputs labels (self : ProxyLayer.t) :
  _train inputs labels self = _eval inputs labels self
  /\ _train inputs labels self =
       (Return tt,
        after_forward_loss_metrics inputs labels self,
        call_inner_layer (inner_layer self) inputs
          :: loss_events self
               (_prepare (forward (inner_layer self) inputs) labels)
          ++ metric_events self
               (_prepare (forward (inner_layer self) inputs) labels)).
Proof.
  split.
  - rewrite _train_run, _eval_run. reflexivity.
  - apply _train_run.
Qed.

(** C9: [_predict(inputs)] updates only [input_vars] and [output_vars]:
    [label_vars], [loss_vars], [metric_vars], [loss_func], [metrics] and
    [mode] (and the wrapped layer and the bound attributes) are as
    before, and the only call made is the one of the inner layer, so the
    loss and the metrics are never invoked. *)
Theorem _predict_frame inputs (self : ProxyLayer.t) :
  let r := _predict inputs self in
  outcome r = Return tt
  /\ input_vars (final r) = inputs
  /\ output_vars (final r) = forward (inner_layer self) inputs
  /\ label_vars (final r) = label_vars self
  /\ loss_vars (final r) = loss_vars self
  /\ metric_vars (final r) = metric_vars self
  /\ loss_func (final r) = loss_func self
  /\ metrics (final r) = metrics self
  /\ mode (final r) = mode self
  /\ inner_layer (final r) = inner_layer self
  /\ attrs (final r) = attrs self
  /\ events r = [call_inner_layer (inner_layer self) inputs]
  /\ Forall (fun e => is_loss_or_metric_call e = false) (events r).
Proof.
  intros r. subst r. rewrite _predict_run.
  repeat split. repeat constructor.
Qed.
End ProxyLayerClaims.

Section InitClaims.
Context {Sg : Signature} {Fw : Framework Sg}.

(** C6: [ProgramHelper.__init__] wraps the model, the loss function and
    the metrics unchanged: afterwards the proxy layer holds exactly
    them, its [mode] is [None], its five variable lists are empty, and
    [build_info.has_cache(m)] is false for every mode [m]. *)
Theorem __init___state layer loss_func metrics inputs_spec labels_spec :
  let self :=
    ProgramHelper.__init__ layer loss_func metrics inputs_spec labels_spec in
  let proxy := ProgramHelper.proxy_layer self in
  ProxyLayer.inner_layer proxy = layer
  /\ ProxyLayer.loss_func proxy = loss_func
  /\ ProxyLayer.metrics proxy = metrics
  /\ ProxyLayer.mode proxy = None
  /\ ProxyLayer.input_vars proxy = []
  /\ ProxyLayer.label_vars proxy = []
  /\ ProxyLayer.output_vars proxy = []
  /\ ProxyLayer.loss_vars proxy = []
  /\ ProxyLayer.metric_vars proxy = []
  /\ ProxyLayer.attrs proxy = ∅
  /\ ProgramHelper.inputs_spec self = inputs_spec
  /\ ProgramHelper.labels_spec self = labels_spec
  /\ forall m,
       BuildInfo.has_cache (ProgramHelper.build_info self) m = false.
Proof. simpl. repeat split. Qed.
End InitClaims.

(** ** Static functions *)
Section StaticFunctionFacts.
Context {Sg : Signature} {Fw : Framework Sg}.
Import ProxyLayer.

Lemma same_frame_refl p : same_frame p p.
Proof. repeat split. Qed.

Lemma call_frame f args (p : ProxyLayer.t) :
  same_frame p (final (StaticFunction.call f args p)).
Proof.
  induction f as [name | g IH spec]; simpl; [| apply IH].
  repeat case_bool_decide;
    destruct args as [|a [|b [|c l]]];
    rewrite ?_train_run, ?_eval_run, ?_predict_run;
    apply same_frame_refl || (repeat split).
Qed.


Lemma concrete_program_frame f (p : ProxyLayer.t) :
  same_frame p (final (StaticFunction.concrete_program f p)).
Proof.
  destruct f as [name | g spec]; simpl; [apply same_frame_refl |].
  unfold bind, emit. simpl.
  pose proof (call_frame g (map (map data) spec) p) as Hc.
  destruct (StaticFunction.call g (map (map data) spec) p)
    as [[[[]|e] q] t]; exact Hc.
Qed.
End StaticFunctionFacts.

(** ** ProgramHelper *)
Section ProgramHelperFacts.
Context {Sg : Signature} {Fw : Framework Sg}.
Import ProgramHelper.

Lemma set_proxy_layer_id (self : ProgramHelper.t) :
  with_proxy_layer (proxy_layer self) self = self.
Proof. destruct self. reflexivity. Qed.

Lemma mode_method mode : mode ∈ modes -> "_" +:+ mode ∈ ProxyLayer.methods.
Proof.
  unfold modes. intros Hin.
  repeat (apply elem_of_cons in Hin as [-> | Hin]);
    [ | | | apply elem_of_nil in Hin; contradiction ];
    vm_compute; repeat constructor.
Qed.

Lemma getattr_run name (p : ProxyLayer.t) :
  name ∈ ProxyLayer.methods ->
  ProxyLayer.getattr name p = (Return (mode_function name p), p, []).
Proof.
  intros Hname. unfold ProxyLayer.getattr, mode_function, bind, get.
  destruct (ProxyLayer.attrs p !! name) as [f|]; simpl; [reflexivity |].
  rewrite bool_decide_eq_true_2 by exact Hname. reflexivity.
Qed.

Lemma static_func_run (self : ProgramHelper.t) mode :
  ProxyLayer.mode (proxy_layer self) = Some mode ->
  mode ∈ modes ->
  static_func self =
    (Return (mode_function ("_" +:+ mode) (proxy_layer self)), self, []).
Proof.
  intros Hmode Hin. unfold static_func, bind, get. rewrite Hmode.
  unfold assert. rewrite bool_decide_eq_true_2 by exact Hin.
  unfold ret, on_proxy_layer, zoom.
  rewrite getattr_run by (apply mode_method; exact Hin).
  rewrite set_proxy_layer_id. reflexivity.
Qed.

Lemma static_func_raises (self : ProgramHelper.t) :
  (forall mode, ProxyLayer.mode (proxy_layer self) = Some mode ->
                mode ∉ modes) ->
  static_func self = (Raise please_call_build_program, self, []).
Proof.
  intros Hbad. unfold static_func, bind, get.
  destruct (ProxyLayer.mode (proxy_layer self)) as [mode|]; [| reflexivity].
  unfold assert. rewrite bool_decide_eq_false_2 by (apply Hbad; reflexivity).
  reflexivity.
Qed.

Lemma build_program_invalid mode (self : ProgramHelper.t) :
  mode ∉ modes ->
  build_program mode self = (Raise (AssertionError None), self, []).
Proof.
  intros Hbad. unfold build_program, bind, assert.
  rewrite bool_decide_eq_false_2 by exact Hbad. reflexivity.
Qed.

Lemma build_program_cached mode (self : ProgramHelper.t) :
  mode ∈ modes ->
  BuildInfo.has_cache (build_info self) mode = true ->
  build_program mode self =
    (Return tt, self,
     [logger_info ("Already build program with mode = " +:+ mode
                   +:+ ", use cached program.")]).
Proof.
  intros Hin Hc. unfold build_program, bind, assert.
  rewrite bool_decide_eq_true_2 by exact Hin. simpl. rewrite Hc.
  reflexivity.
Qed.

Lemma mode_function_bound name g m (p : ProxyLayer.t) :
  mode_function name (ProxyLayer.with_attrs (<[name := g]> m) p) = g.
Proof.
  unfold mode_function. cbn [ProxyLayer.attrs ProxyLayer.with_attrs].
  rewrite lookup_insert_eq. reflexivity.
Qed.

(** Run the first statement of a method body: [tac] exposes what it
    returns on the current object. *)
Ltac step tac :=
  unfold bind at 1; tac; cbv beta iota;
  cbn [proxy_layer with_proxy_layer inputs_spec labels_spec].

Lemma build_program_run mode (self : ProgramHelper.t) :
  mode ∈ modes ->
  BuildInfo.has_cache (build_info self) mode = false ->
  let f := mode_function ("_" +:+ mode) (proxy_layer self) in
  let input_spec :=
    if bool_decide (mode ≠ "predict")
    then [inputs_spec self; labels_spec self]
    else [inputs_spec self] in
  let traced :=
    StaticFunction.call f (map (map data) input_spec)
      (ready_to_trace mode f input_spec self) in
  build_program mode self =
    (outcome traced,
     with_proxy_layer (final traced) self,
     logger_info ("start to build program for mode = " +:+ mode +:+ ".")
       :: call_to_static f input_spec
       :: read_concrete_program (StaticFunction f input_spec)
       :: events traced).
Proof.
  intros Hin Hc f input_spec traced.
  unfold build_program.
  (* assert mode in [...] *)
  step ltac:(unfold assert at 1, ret at 1;
             rewrite bool_decide_eq_true_2 by exact Hin).
  (* if self.build_info.has_cache(mode) *)
  step ltac:(unfold get at 1). rewrite Hc.
  (* self._logger.info(...) *)
  step ltac:(unfold emit at 1).
  (* self.proxy_layer.mode = mode *)
  step ltac:(unfold on_proxy_layer at 1, zoom at 1, modify at 1).
  step ltac:(unfold get at 1).
  (* self.static_func() *)
  step ltac:(erewrite static_func_run; [ | reflexivity | exact Hin ]).
  (* to_static(..., input_spec=input_spec) *)
  step ltac:(unfold StaticFunction.to_static at 1, bind at 1, emit at 1,
             ret at 1).
  (* setattr(self.proxy_layer, func_name, static_func) *)
  step ltac:(unfold on_proxy_layer at 1, zoom at 1, ProxyLayer.setattr at 1,
             modify at 1).
  (* getattr(self.proxy_layer, func_name) *)
  step ltac:(unfold on_proxy_layer at 1, zoom at 1;
             rewrite getattr_run by (apply mode_method; exact Hin)).
  rewrite mode_function_bound.
  (* .concrete_program *)
  step ltac:(unfold on_proxy_layer at 1, zoom at 1;
             unfold StaticFunction.concrete_program at 1).
  step ltac:(unfold emit at 1).
  step ltac:(idtac).
  change (StaticFunction.call _ _ _) with traced.
  destruct traced as [[[[]|e] p] t];
    unfold ret, outcome, final, events; cbn [fst snd app];
    rewrite ?app_nil_r; reflexivity.
Qed.
Lemma attrs_ok_same_frame (p q : ProxyLayer.t) :
  same_frame p q -> attrs_ok p -> attrs_ok q.
Proof.
  intros (_ & _ & _ & _ & Hattrs) Hok name f. rewrite Hattrs. apply Hok.
Qed.

Lemma wraps_mode_function name (p : ProxyLayer.t) :
  attrs_ok p -> wraps name (mode_function name p).
Proof.
  intros Hok. unfold mode_function.
  destruct (ProxyLayer.attrs p !! name) as [f|] eqn:Hf; simpl.
  - apply (Hok name f Hf).
  - reflexivity.
Qed.

Lemma attrs_ok_ready_to_trace mode input_spec (self : ProgramHelper.t) :
  mode ∈ modes ->
  attrs_ok (proxy_layer self) ->
  attrs_ok
    (ready_to_trace mode
       (mode_function ("_" +:+ mode) (proxy_layer self)) input_spec self).
Proof.
  intros Hin Hok name f. unfold ready_to_trace.
  cbn [ProxyLayer.attrs ProxyLayer.with_attrs ProxyLayer.with_mode].
  rewrite lookup_insert. case_decide as Hname.
  - intros [= <-]. subst name. split; [apply mode_method; exact Hin |].
    simpl. apply wraps_mode_function. exact Hok.
  - apply Hok.
Qed.

Lemma build_program_final mode (self : ProgramHelper.t) :
  exists p,
    final (build_program mode self) = with_proxy_layer p self
    /\ (attrs_ok (proxy_layer self) -> attrs_ok p).
Proof.
  destruct (decide (mode ∈ modes)) as [Hin | Hbad].
  - destruct (BuildInfo.has_cache (build_info self) mode) eqn:Hc.
    + rewrite build_program_cached by assumption.
      exists (proxy_layer self). rewrite set_proxy_layer_id. split; auto.
    + rewrite build_program_run by assumption.
      eexists. split; [reflexivity |].
      intros Hok. eapply attrs_ok_same_frame; [apply call_frame |].
      apply attrs_ok_ready_to_trace; assumption.
  - rewrite build_program_invalid by assumption.
    exists (proxy_layer self). rewrite set_proxy_layer_id. split; auto.
Qed.

Lemma concrete_program_final (self : ProgramHelper.t) :
  exists p,
    final (concrete_program self) = with_proxy_layer p self
    /\ same_frame (proxy_layer self) p.
Proof.
  unfold concrete_program, bind.
  destruct (static_func self) as [[[f|e] s] t] eqn:Hs.
  - assert (s = self) as ->.
    { unfold static_func, bind, get in Hs.
      destruct (ProxyLayer.mode (proxy_layer self)) as [mode|];
        [| discriminate Hs].
      unfold assert in Hs. case_bool_decide; [| discriminate Hs].
      unfold ret, on_proxy_layer, zoom in Hs.
      rewrite getattr_run in Hs by (apply mode_method; assumption).
      rewrite set_proxy_layer_id in Hs. congruence. }
    unfold on_proxy_layer, zoom.
    pose proof (concrete_program_frame f (proxy_layer self)) as Hf.
    destruct (StaticFunction.concrete_program f (proxy_layer self))
      as [[r p] t']. exists p. split; [reflexivity | exact Hf].
  - exists (proxy_layer self). split; [| apply same_frame_refl].
    unfold static_func, bind, get in Hs.
    destruct (ProxyLayer.mode (proxy_layer self)) as [mode|].
    + unfold assert in Hs. case_bool_decide.
      * unfold ret, on_proxy_layer, zoom in Hs.
        rewrite getattr_run in Hs by (apply mode_method; assumption).
        discriminate Hs.
      * unfold raise in Hs. rewrite set_proxy_layer_id.
        unfold final. simpl. congruence.
    + unfold raise in Hs. rewrite set_proxy_layer_id.
      unfold final. simpl. congruence.
Qed.

Lemma main_program_final (self : ProgramHelper.t) :
  final (main_program self) = final (concrete_program self).
Proof.
  unfold main_program, bind.
  destruct (concrete_program self) as [[[cp|e] s] t]; reflexivity.
Qed.

Lemma startup_program_final (self : ProgramHelper.t) :
  final (startup_program self) = final (concrete_program self).
Proof.
  unfold startup_program, bind.
  destruct (concrete_program self) as [[[cp|e] s] t]; reflexivity.
Qed.

Lemma reachable_ok (self : ProgramHelper.t) :
  reachable self -> helper_ok self.
Proof.
  induction 1 as [layer loss_func metrics ispec lspec
                 | mode self _ [Hb Ha] | self _ [Hb Ha]
                 | self _ [Hb Ha] | self _ [Hb Ha]].
  - split; [reflexivity |]. intros name f. simpl.
    rewrite lookup_empty. discriminate.
  - destruct (build_program_final mode self) as (p & -> & Hp).
    split; [exact Hb | apply Hp, Ha].
  - destruct (concrete_program_final self) as (p & -> & Hp).
    split; [exact Hb | exact (attrs_ok_same_frame _ _ Hp Ha)].
  - rewrite main_program_final.
    destruct (concrete_program_final self) as (p & -> & Hp).
    split; [exact Hb | exact (attrs_ok_same_frame _ _ Hp Ha)].
  - rewrite startup_program_final.
    destruct (concrete_program_final self) as (p & -> & Hp).
    split; [exact Hb | exact (attrs_ok_same_frame _ _ Hp Ha)].
Qed.

(** No reachable helper has a cached program: nothing assigns
    [build_info] after [__init__]. *)
Lemma reachable_no_cache (self : ProgramHelper.t) mode :
  reachable self -> BuildInfo.has_cache (build_info self) mode = false.
Proof.
  intros Hr. destruct (reachable_ok self Hr) as [-> _]. reflexivity.
Qed.


(** What the build branch of [build_program] does to the helper. *)
Lemma build_program_effect mode (self : ProgramHelper.t) :
  mode ∈ modes ->
  BuildInfo.has_cache (build_info self) mode = false ->
  let func_name := "_" +:+ mode in
  let f := mode_function func_name (proxy_layer self) in
  let input_spec :=
    if bool_decide (mode = "predict")
    then [inputs_spec self]
    else [inputs_spec self; labels_spec self] in
  let run := build_program mode self in
  events run =
    logger_info ("start to build program for mode = " +:+ mode +:+ ".")
      :: call_to_static f input_spec
      :: read_concrete_program (StaticFunction f input_spec)
      :: events (StaticFunction.call f (map (map data) input_spec)
                   (ready_to_trace mode f input_spec self))
  /\ ProxyLayer.mode (proxy_layer (final run)) = Some mode
  /\ ProxyLayer.attrs (proxy_layer (final run)) !! func_name
     = Some (StaticFunction f input_spec)
  /\ (forall other, other ≠ func_name ->
        ProxyLayer.attrs (proxy_layer (final run)) !! other
        = ProxyLayer.attrs (proxy_layer self) !! other)
  /\ build_info (final run) = build_info self
  /\ inputs_spec (final run) = inputs_spec self
  /\ labels_spec (final run) = labels_spec self.
Proof.
  intros Hin Hc func_name f input_spec run. subst run.
  rewrite build_program_run by assumption. fold func_name. fold f.
  assert ((if bool_decide (mode ≠ "predict")
           then [inputs_spec self; labels_spec self]
           else [inputs_spec self]) = input_spec) as ->.
  { subst input_spec. repeat case_bool_decide; done. }
  unfold events at 1, final. cbn [fst snd proxy_layer with_proxy_layer
    build_info inputs_spec labels_spec].
  destruct (call_frame f (map (map data) input_spec)
              (ready_to_trace mode f input_spec self))
    as (_ & _ & _ & Hmode & Hattrs).
  unfold final in Hmode, Hattrs. rewrite Hmode, Hattrs.
  unfold ready_to_trace.
  cbn [ProxyLayer.attrs ProxyLayer.mode ProxyLayer.with_attrs
       ProxyLayer.with_mode].
  fold func_name.
  repeat split.
  - apply lookup_insert_eq.
  - intros other Hother. apply lookup_insert_ne. congruence.
Qed.
End ProgramHelperFacts.

Section ProgramHelperClaims.
Context {Sg : Signature} {Fw : Framework Sg}.
Import ProgramHelper.

(** C2: for every argument [m] not in ['train', 'eval', 'predict'],
    [build_program(m)] fails with an assertion failure, and the helper
    is unchanged ([build_info], the mode of the proxy layer and its
    mode-function attributes included); nothing is logged or traced. *)
Theorem build_program_rejects_unknown_mode m (self : ProgramHelper.t) :
  m ∉ modes ->
  let run := build_program m self in
  outcome run = Raise (AssertionError None)
  /\ final run = self
  /\ build_info (final run) = build_info self
  /\ ProxyLayer.mode (proxy_layer (final run))
     = ProxyLayer.mode (proxy_layer self)
  /\ ProxyLayer.attrs (proxy_layer (final run))
     = ProxyLayer.attrs (proxy_layer self)
  /\ events run = [].
Proof.
  intros Hbad run. subst run. rewrite build_program_invalid by exact Hbad.
  repeat split.
Qed.

(** C4: for every valid mode with no cache hit, [build_program(mode)]
    calls [to_static] exactly on what [static_func()] returns, with
    [input_spec] equal to [[inputs_spec, labels_spec]] for 'train' and
    'eval' and to [[inputs_spec]] for 'predict'; it reads the
    [concrete_program] of the result, which traces it on the feed
    variables of that [input_spec]; afterwards the mode of the proxy layer
    is [mode] and the attribute ['_' + mode] is the static function.  The
    other attributes, [build_info] and the specs are as before. *)
Theorem build_program_delegates_to_static mode (self : ProgramHelper.t) :
  mode ∈ modes ->
  BuildInfo.has_cache (build_info self) mode = false ->
  let func_name := "_" +:+ mode in
  let f := mode_function func_name (proxy_layer self) in
  let input_spec :=
    if bool_decide (mode = "predict")
    then [inputs_spec self]
    else [inputs_spec self; labels_spec self] in
  let run := build_program mode self in
  events run =
    logger_info ("start to build program for mode = " +:+ mode +:+ ".")
      :: call_to_static f input_spec
      :: read_concrete_program (StaticFunction f input_spec)
      :: events (StaticFunction.call f (map (map data) input_spec)
                   (ready_to_trace mode f input_spec self))
  /\ ProxyLayer.mode (proxy_layer (final run)) = Some mode
  /\ ProxyLayer.attrs (proxy_layer (final run)) !! func_name
     = Some (StaticFunction f input_spec)
  /\ (forall other, other ≠ func_name ->
        ProxyLayer.attrs (proxy_layer (final run)) !! other
        = ProxyLayer.attrs (proxy_layer self) !! other)
  /\ build_info (final run) = build_info self
  /\ inputs_spec (final run) = inputs_spec self
  /\ labels_spec (final run) = labels_spec self.
Proof. apply build_program_effect. Qed.

(** C5: while the mode of the proxy layer is not one of 'train', 'eval',
    'predict' (as before any successful [build_program], when it is
    [None]), [static_func()], and with it the properties
    [concrete_program], [main_program] and [startup_program], fail with
    an assertion failure and change nothing; after a successful
    [build_program(mode)], [static_func()] returns the attribute
    ['_' + mode] of the proxy layer, the static function bound there. *)
Theorem static_func_after_build_program mode (self : ProgramHelper.t) :
  ((forall m, ProxyLayer.mode (proxy_layer self) = Some m -> m ∉ modes) ->
     static_func self = (Raise please_call_build_program, self, [])
     /\ concrete_program self = (Raise please_call_build_program, self, [])
     /\ main_program self = (Raise please_call_build_program, self, [])
     /\ startup_program self = (Raise please_call_build_program, self, []))
  /\ (reachable self ->
      outcome (build_program mode self) = Return tt ->
      let built := final (build_program mode self) in
      exists f input_spec,
        ProxyLayer.attrs (proxy_layer built) !! ("_" +:+ mode)
          = Some (StaticFunction f input_spec)
        /\ static_func built
           = (Return (StaticFunction f input_spec), built, [])).
Proof.
  split.
  - intros Hbad. pose proof (static_func_raises self Hbad) as Hs.
    assert (concrete_program self
            = (Raise please_call_build_program, self, [])) as Hcp.
    { unfold concrete_program. apply bind_Raise. exact Hs. }
    repeat split; try assumption.
    + unfold main_program. apply bind_Raise. exact Hcp.
    + unfold startup_program. apply bind_Raise. exact Hcp.
  - intros Hr Hret built.
    assert (mode ∈ modes) as Hin.
    { destruct (decide (mode ∈ modes)) as [Hin | Hbad]; [exact Hin |].
      rewrite build_program_invalid in Hret by exact Hbad.
      discriminate Hret. }
    pose proof (reachable_no_cache self mode Hr) as Hc.
    destruct (build_program_effect mode self Hin Hc)
      as (_ & Hmode & Hattr & _).
    fold built in Hmode, Hattr.
    eexists _, _. split; [exact Hattr |].
    rewrite (static_func_run built mode Hmode Hin).
    unfold mode_function. rewrite Hattr. reflexivity.
Qed.
End ProgramHelperClaims.


(** ** Runs on the concrete framework *)

(** C1, on the code: after [build_program('train')] has returned on a new
    helper, [has_cache('train')] is still false, and the next
    [build_program('train')] does not return early: it calls [to_static]
    and traces again, and rebinds [_train]. *)
Theorem build_program_again_traces_again :
  let first := ProgramHelper.build_program "train" Toy.helper in
  let second := ProgramHelper.build_program "train" (final first) in
  outcome first = Return tt
  /\ BuildInfo.has_cache (ProgramHelper.build_info (final first)) "train"
     = false
  /\ outcome second = Return tt
  /\ events second =
       [logger_info "start to build program for mode = train.";
        call_to_static
          (StaticFunction (BoundMethod "_train") [["x"]; ["y"]])
          [["x"]; ["y"]];
        read_concrete_program
          (StaticFunction
             (StaticFunction (BoundMethod "_train") [["x"]; ["y"]])
             [["x"]; ["y"]]);
        call_inner_layer "net" ["x"];
        call_loss_func "mse" ["net.out"; "y"];
        call_metric_compute "acc" ["net.out"; "y"]]
  /\ ProxyLayer.attrs (ProgramHelper.proxy_layer (final first)) !! "_train"
     = Some (StaticFunction (BoundMethod "_train") [["x"]; ["y"]])
  /\ ProxyLayer.attrs (ProgramHelper.proxy_layer (final second)) !! "_train"
     = Some (StaticFunction
               (StaticFunction (BoundMethod "_train") [["x"]; ["y"]])
               [["x"]; ["y"]]).
Proof. vm_compute. repeat split. Qed.

(** C3, on the code: the cached statuses of two modes are not kept at
    all.  On a new helper, after [build_program('train')] has returned,
    [has_cache('train')] is false; after [build_program('eval')] has then
    returned too, [has_cache('train')] and [has_cache('eval')] are both
    false, and [build_info] is still the one [__init__] made. *)
Theorem has_cache_train_false_after_eval :
  let first := ProgramHelper.build_program "train" Toy.helper in
  let second := ProgramHelper.build_program "eval" (final first) in
  outcome first = Return tt
  /\ BuildInfo.has_cache (ProgramHelper.build_info (final first)) "train"
     = false
  /\ outcome second = Return tt
  /\ BuildInfo.has_cache (ProgramHelper.build_info (final second)) "train"
     = false
  /\ BuildInfo.has_cache (ProgramHelper.build_info (final second)) "eval"
     = false
  /\ ProgramHelper.build_info (final second) = BuildInfo.__init__ None false.
Proof. vm_compute. repeat split. Qed.

Lemma build_program_rejects_unknown_mode_witness :
  let run := ProgramHelper.build_program "test" Toy.helper in
  outcome run = Raise (AssertionError None)
  /\ final run = Toy.helper
  /\ ProgramHelper.build_info (final run) = ProgramHelper.build_info Toy.helper
  /\ ProxyLayer.mode (ProgramHelper.proxy_layer (final run))
     = ProxyLayer.mode (ProgramHelper.proxy_layer Toy.helper)
  /\ ProxyLayer.attrs (ProgramHelper.proxy_layer (final run))
     = ProxyLayer.attrs (ProgramHelper.proxy_layer Toy.helper)
  /\ events run = [].
Proof.
  apply (build_program_rejects_unknown_mode "test" Toy.helper).
  apply (bool_decide_eq_false_1 ("test" ∈ modes)). vm_compute. reflexivity.
Defined.

Lemma build_program_delegates_to_static_witness :
  let run := ProgramHelper.build_program "predict" Toy.helper in
  events run =
    [logger_info "start to build program for mode = predict.";
     call_to_static (BoundMethod "_predict") [["x"]];
     read_concrete_program (StaticFunction (BoundMethod "_predict") [["x"]]);
     call_inner_layer "net" ["x"]]
  /\ ProxyLayer.mode (ProgramHelper.proxy_layer (final run)) = Some "predict"
  /\ ProxyLayer.attrs (ProgramHelper.proxy_layer (final run)) !! "_predict"
     = Some (StaticFunction (BoundMethod "_predict") [["x"]]).
Proof.
  assert ("predict" ∈ modes) as Hin
    by (apply (bool_decide_eq_true_1 ("predict" ∈ modes)); vm_compute;
        reflexivity).
  assert (BuildInfo.has_cache (ProgramHelper.build_info Toy.helper) "predict"
          = false) as Hc by (vm_compute; reflexivity).
  destruct (build_program_delegates_to_static "predict" Toy.helper Hin Hc)
    as (Hev & Hmode & Hattr & _).
  split; [exact Hev | split; [exact Hmode | exact Hattr]].
Defined.

Lemma static_func_after_build_program_witness :
  ProgramHelper.static_func Toy.helper
    = (Raise please_call_build_program, Toy.helper, [])
  /\ exists f input_spec,
       ProgramHelper.static_func
         (final (ProgramHelper.build_program "eval" Toy.helper))
       = (Return (StaticFunction f input_spec),
          final (ProgramHelper.build_program "eval" Toy.helper), []).
Proof.
  destruct (static_func_after_build_program "eval" Toy.helper)
    as [Hbefore Hafter].
  split.
  - apply Hbefore. intros m Hm. discriminate Hm.
  - destruct Hafter as (f & input_spec & _ & Hs).
    + apply reachable_init.
    + vm_compute. reflexivity.
    + exists f, input_spec. exact Hs.
Defined.

Lemma call_loss_call_metrics_return_witness :
  outcome (ProxyLayer.call_loss (Sg := Toy.sg) ["a"; "b"] Toy.bare) = Return []
  /\ outcome (ProxyLayer.call_loss (Sg := Toy.sg) ["a"; "b"]
                (ProgramHelper.proxy_layer Toy.helper))
     = Return ["mse.loss"]
  /\ outcome (ProxyLayer.call_metrics (Sg := Toy.sg) ["a"; "b"] Toy.bare) = Return [].
Proof.
  destruct (call_loss_call_metrics_return (Sg := Toy.sg) ["a"; "b"] Toy.bare)
    as (Hnone & _ & _ & Hempty & _).
  destruct (call_loss_call_metrics_return (Sg := Toy.sg) ["a"; "b"]
              (ProgramHelper.proxy_layer Toy.helper))
    as (_ & Hsome & _).
  split; [| split].
  - apply Hnone. reflexivity.
  - apply (Hsome "mse"). reflexivity.
  - apply Hempty. reflexivity.
Defined.

(** * Further properties *)

(** ** Tracing a mode function *)
Section TracingFacts.
Context {Sg : Signature} {Fw : Framework Sg}.
Import ProgramHelper.

Lemma call_wraps name f args (p : ProxyLayer.t) :
  wraps name f ->
  StaticFunction.call f args p
  = StaticFunction.call (BoundMethod name) args p.
Proof.
  induction f as [n | g IH spec]; simpl; [intros ->; reflexivity | exact IH].
Qed.

Lemma func_name_inj m1 m2 : "_" +:+ m1 = "_" +:+ m2 -> m1 = m2.
Proof. intros H. simpl in H. injection H as H. exact H. Qed.

Lemma call_train inputs labels (p : ProxyLayer.t) :
  StaticFunction.call (BoundMethod "_train") [inputs; labels] p
  = ProxyLayer._train inputs labels p.
Proof. reflexivity. Qed.

Lemma call_eval inputs labels (p : ProxyLayer.t) :
  StaticFunction.call (BoundMethod "_eval") [inputs; labels] p
  = ProxyLayer._eval inputs labels p.
Proof. reflexivity. Qed.

Lemma call_predict inputs (p : ProxyLayer.t) :
  StaticFunction.call (BoundMethod "_predict") [inputs] p
  = ProxyLayer._predict inputs p.
Proof. reflexivity. Qed.

(** The three shapes of a valid mode. *)
Lemma modes_cases mode :
  mode ∈ modes -> mode = "train" \/ mode = "eval" \/ mode = "predict".
Proof.
  unfold modes. intros Hin.
  repeat (apply elem_of_cons in Hin as [-> | Hin]); auto.
  apply elem_of_nil in Hin. contradiction.
Qed.

(** Tracing a second time changes nothing. *)
Lemma call_idempotent mode args (p : ProxyLayer.t) :
  mode ∈ modes ->
  final (StaticFunction.call (BoundMethod ("_" +:+ mode)) args
           (final (StaticFunction.call (BoundMethod ("_" +:+ mode)) args p)))
  = final (StaticFunction.call (BoundMethod ("_" +:+ mode)) args p).
Proof.
  intros Hin.
  destruct (modes_cases mode Hin) as [-> | [-> | ->]];
    destruct args as [|a [|b [|c l]]]; try reflexivity.
  - change ("_" +:+ "train") with "_train". rewrite !call_train, !_train_run.
    reflexivity.
  - change ("_" +:+ "eval") with "_eval". rewrite !call_eval, !_eval_run.
    reflexivity.
Qed.

(** The proxy layer that the build branch leaves: the trace of the method
    of the mode, whatever wrappers are bound. *)
Lemma build_program_traced mode (self : ProgramHelper.t) :
  mode ∈ modes ->
  BuildInfo.has_cache (build_info self) mode = false ->
  attrs_ok (proxy_layer self) ->
  let f := mode_function ("_" +:+ mode) (proxy_layer self) in
  let traced :=
    StaticFunction.call (BoundMethod ("_" +:+ mode))
      (map (map data) (input_spec_of mode self))
      (ready_to_trace mode f (input_spec_of mode self) self) in
  build_program mode self =
    (outcome traced,
     with_proxy_layer (final traced) self,
     logger_info ("start to build program for mode = " +:+ mode +:+ ".")
       :: call_to_static f (input_spec_of mode self)
       :: read_concrete_program (StaticFunction f (input_spec_of mode self))
       :: events traced).
Proof.
  intros Hin Hc Hok f traced. subst traced.
  rewrite build_program_run by assumption. cbv zeta. fold f.
  rewrite (call_wraps ("_" +:+ mode) f)
    by (apply wraps_mode_function; exact Hok).
  reflexivity.
Qed.
End TracingFacts.

(** ** Invariants of the reachable helpers *)
Section ReachableFacts.
Context {Sg : Signature} {Fw : Framework Sg}.
Import ProgramHelper.

Lemma program_properties_raise (self : ProgramHelper.t) :
  (forall m, ProxyLayer.mode (proxy_layer self) = Some m -> m ∉ modes) ->
  concrete_program self = (Raise please_call_build_program, self, [])
  /\ main_program self = (Raise please_call_build_program, self, [])
  /\ startup_program self = (Raise please_call_build_program, self, []).
Proof.
  intros Hbad. pose proof (static_func_raises self Hbad) as Hs.
  assert (concrete_program self
          = (Raise please_call_build_program, self, [])) as Hcp.
  { unfold concrete_program. apply bind_Raise. exact Hs. }
  repeat split; try assumption.
  - unfold main_program. apply bind_Raise. exact Hcp.
  - unfold startup_program. apply bind_Raise. exact Hcp.
Qed.

(** Reading [concrete_program] when the static function of the mode is
    bound. *)
Lemma concrete_program_run (self : ProgramHelper.t) m f spec :
  ProxyLayer.mode (proxy_layer self) = Some m ->
  m ∈ modes ->
  ProxyLayer.attrs (proxy_layer self) !! ("_" +:+ m)
    = Some (StaticFunction f spec) ->
  let traced :=
    StaticFunction.call f (map (map data) spec) (proxy_layer self) in
  concrete_program self =
    (match outcome traced with
     | Return _ => Return (ConcreteProgramOf (StaticFunction f spec))
     | Raise e => Raise e
     end,
     with_proxy_layer (final traced) self,
     read_concrete_program (StaticFunction f spec) :: events traced).
Proof.
  intros Hmode Hin Hattr traced. unfold concrete_program.
  unfold bind at 1. rewrite (static_func_run self m Hmode Hin).
  unfold mode_function. rewrite Hattr. cbn [default from_option id].
  cbv beta iota.
  unfold on_proxy_layer, zoom, StaticFunction.concrete_program.
  unfold bind at 1. unfold emit at 1. cbv beta iota.
  unfold bind at 1. fold traced.
  destruct traced as [[[[]|e] p] t];
    unfold ret, outcome, final, events; cbn [fst snd app];
    rewrite ?app_nil_r; reflexivity.
Qed.

Lemma input_spec_of_with_proxy_layer mode p (self : ProgramHelper.t) :
  input_spec_of mode (with_proxy_layer p self) = input_spec_of mode self.
Proof. reflexivity. Qed.

(** On a settled helper the three program properties change nothing. *)
Lemma concrete_program_unchanged (self : ProgramHelper.t) :
  attrs_ok (proxy_layer self) -> mode_bound self -> settled self ->
  final (concrete_program self) = self.
Proof.
  intros Hok Hbound [_ Htraced]. unfold mode_bound in Hbound.
  destruct (ProxyLayer.mode (proxy_layer self)) as [m|] eqn:Hmode.
  - destruct Hbound as (Hin & f & Hattr).
    rewrite (concrete_program_run self m f _ Hmode Hin Hattr).
    unfold final at 1. cbn [fst snd].
    destruct (Hok _ _ Hattr) as [_ Hw]. simpl in Hw.
    rewrite (call_wraps _ _ _ _ Hw), (Htraced m eq_refl).
    apply set_proxy_layer_id.
  - destruct (program_properties_raise self) as (-> & _).
    + intros m Hm. rewrite Hmode in Hm. discriminate Hm.
    + reflexivity.
Qed.

Lemma reachable_mode_bound_settled (self : ProgramHelper.t) :
  reachable self -> mode_bound self /\ settled self.
Proof.
  induction 1 as [layer loss_func metrics ispec lspec
                 | mode self Hr [Hb Hs] | self Hr [Hb Hs]
                 | self Hr [Hb Hs] | self Hr [Hb Hs]].
  - split.
    + split; [reflexivity | repeat split].
    + split.
      * intros m g _. simpl. rewrite lookup_empty. discriminate.
      * intros m. simpl. discriminate.
  - destruct (reachable_ok self Hr) as [_ Hok].
    destruct (decide (mode ∈ modes)) as [Hin | Hbad];
      [| rewrite build_program_invalid by exact Hbad; split; assumption].
    rewrite (build_program_traced mode self Hin
               (reachable_no_cache self mode Hr) Hok).
    cbv zeta. unfold final at 1 3. cbn [fst snd].
    set (f := mode_function ("_" +:+ mode) (proxy_layer self)).
    set (R := ready_to_trace mode f (input_spec_of mode self) self).
    set (args := map (map data) (input_spec_of mode self)).
    destruct (call_frame (BoundMethod ("_" +:+ mode)) args R)
      as (_ & _ & _ & Hmode & Hattrs).
    set (p' := final (StaticFunction.call (BoundMethod ("_" +:+ mode))
                        args R)) in *.
    assert (ProxyLayer.attrs p'
            = <["_" +:+ mode := StaticFunction f (input_spec_of mode self)]>
                (ProxyLayer.attrs (proxy_layer self))) as Hattrs'
      by (rewrite Hattrs; reflexivity).
    assert (ProxyLayer.mode p' = Some mode) as Hmode'
      by (rewrite Hmode; reflexivity).
    split.
    + unfold mode_bound. cbn [proxy_layer with_proxy_layer].
      rewrite Hmode'. split; [exact Hin |].
      exists f. rewrite Hattrs', input_spec_of_with_proxy_layer.
      apply lookup_insert_eq.
    + split.
      * intros m g Hm. cbn [proxy_layer with_proxy_layer].
        rewrite Hattrs', input_spec_of_with_proxy_layer, lookup_insert.
        case_decide as Hname.
        -- apply func_name_inj in Hname. subst m. intros [= <-].
           exists f. reflexivity.
        -- apply (proj1 Hs m g Hm).
      * intros m. cbn [proxy_layer with_proxy_layer].
        rewrite Hmode', input_spec_of_with_proxy_layer. intros [= <-].
        subst p'. apply call_idempotent. exact Hin.
  - destruct (reachable_ok self Hr) as [_ Hok].
    rewrite (concrete_program_unchanged self Hok Hb Hs). split; assumption.
  - destruct (reachable_ok self Hr) as [_ Hok].
    rewrite main_program_final,
      (concrete_program_unchanged self Hok Hb Hs). split; assumption.
  - destruct (reachable_ok self Hr) as [_ Hok].
    rewrite startup_program_final,
      (concrete_program_unchanged self Hok Hb Hs). split; assumption.
Qed.
End ReachableFacts.

(** ** What the helper does over its life *)
Section ProgramHelperLife.
Context {Sg : Signature} {Fw : Framework Sg}.
Import ProgramHelper.

(** X1: no helper reachable from [__init__] through [build_program] and
    the program properties ever has a cached program: [build_info] stays
    the [BuildInfo()] of [__init__] and [has_cache] is false for every
    mode. *)
Theorem reachable_never_cached (self : ProgramHelper.t) mode :
  reachable self ->
  build_info self = BuildInfo.__init__ None false
  /\ BuildInfo.has_cache (build_info self) mode = false.
Proof.
  intros Hr. destruct (reachable_ok self Hr) as [Hb _].
  split; [exact Hb | rewrite Hb; reflexivity].
Qed.

(** X3: whatever its argument and its outcome, [build_program] never
    changes [build_info], the two specs, the wrapped layer, the loss
    function or the metrics, nor any attribute other than ['_' + mode]. *)
Theorem build_program_keeps_configuration mode (self : ProgramHelper.t) :
  let built := final (build_program mode self) in
  build_info built = build_info self
  /\ inputs_spec built = inputs_spec self
  /\ labels_spec built = labels_spec self
  /\ ProxyLayer.inner_layer (proxy_layer built)
     = ProxyLayer.inner_layer (proxy_layer self)
  /\ ProxyLayer.loss_func (proxy_layer built)
     = ProxyLayer.loss_func (proxy_layer self)
  /\ ProxyLayer.metrics (proxy_layer built)
     = ProxyLayer.metrics (proxy_layer self)
  /\ forall other, other ≠ "_" +:+ mode ->
       ProxyLayer.attrs (proxy_layer built) !! other
       = ProxyLayer.attrs (proxy_layer self) !! other.
Proof.
  intros built. subst built.
  destruct (decide (mode ∈ modes)) as [Hin | Hbad];
    [| rewrite build_program_invalid by exact Hbad; repeat split].
  destruct (BuildInfo.has_cache (build_info self) mode) eqn:Hc;
    [rewrite build_program_cached by assumption; repeat split |].
  rewrite build_program_run by assumption. cbv zeta.
  match goal with
  | |- context [StaticFunction.call ?f ?args ?R] =>
      pose proof (call_frame f args R) as Hframe;
      destruct (StaticFunction.call f args R) as [[r p] t]
  end.
  unfold final in *. cbn [fst snd] in *.
  destruct Hframe as (Hl & Hf & Hm & _ & Ha).
  cbn [build_info inputs_spec labels_spec proxy_layer with_proxy_layer].
  rewrite Hl, Hf, Hm, Ha. unfold ready_to_trace.
  cbn [ProxyLayer.inner_layer ProxyLayer.loss_func ProxyLayer.metrics
       ProxyLayer.attrs ProxyLayer.with_attrs ProxyLayer.with_mode].
  repeat split.
  intros other Hother. apply lookup_insert_ne. congruence.
Qed.

(** X4: when [build_info] does say that [mode] is built,
    [build_program(mode)] returns at once: it logs one line, calls neither
    [to_static] nor the model, and leaves the helper as it is. *)
Theorem build_program_cache_hit mode (self : ProgramHelper.t) :
  mode ∈ modes ->
  BuildInfo.has_cache (build_info self) mode = true ->
  build_program mode self =
    (Return tt, self,
     [logger_info ("Already build program with mode = " +:+ mode
                   +:+ ", use cached program.")]).
Proof. intros Hin Hc. apply build_program_cached; assumption. Qed.

(** X5: after [build_program] of 'train' or 'eval' on a reachable helper,
    the five variable lists of the proxy layer are those of this build
    alone: the feed variables of [inputs_spec] and [labels_spec], the
    outputs of the layer on the former, and the loss and the metric values
    on the prepared outputs and labels.  The calls are, in order: the log,
    [to_static], the read of [concrete_program], the layer, the loss (if
    any), each metric. *)
Theorem build_program_train_eval_variables mode (self : ProgramHelper.t) :
  reachable self ->
  mode = "train" \/ mode = "eval" ->
  let proxy := proxy_layer self in
  let f := mode_function ("_" +:+ mode) proxy in
  let input_spec := [inputs_spec self; labels_spec self] in
  let inputs := map data (inputs_spec self) in
  let labels := map data (labels_spec self) in
  let out := forward (ProxyLayer.inner_layer proxy) inputs in
  let new_inputs := ProxyLayer._prepare out labels in
  let run := build_program mode self in
  ProxyLayer.input_vars (proxy_layer (final run)) = inputs
  /\ ProxyLayer.label_vars (proxy_layer (final run)) = labels
  /\ ProxyLayer.output_vars (proxy_layer (final run)) = out
  /\ ProxyLayer.loss_vars (proxy_layer (final run))
     = match ProxyLayer.loss_func proxy with
       | Some loss => loss_call loss new_inputs
       | None => []
       end
  /\ ProxyLayer.metric_vars (proxy_layer (final run))
     = concat (map (fun metric => compute metric new_inputs)
                   (ProxyLayer.metrics proxy))
  /\ events run =
       logger_info ("start to build program for mode = " +:+ mode +:+ ".")
         :: call_to_static f input_spec
         :: read_concrete_program (StaticFunction f input_spec)
         :: call_inner_layer (ProxyLayer.inner_layer proxy) inputs
         :: loss_events proxy new_inputs ++ metric_events proxy new_inputs.
Proof.
  intros Hr Hmode proxy f input_spec inputs labels out new_inputs run.
  subst run. destruct (reachable_ok self Hr) as [_ Hok].
  pose proof (fun m => reachable_no_cache self m Hr) as Hc.
  destruct Hmode as [-> | ->].
  - rewrite (build_program_traced "train" self) by (auto; set_solver).
    cbv zeta.
    change (input_spec_of "train" self) with input_spec.
    change (StaticFunction.call _ _ ?R)
      with (ProxyLayer._train inputs labels R).
    rewrite _train_run. repeat split.
  - rewrite (build_program_traced "eval" self) by (auto; set_solver).
    cbv zeta.
    change (input_spec_of "eval" self) with input_spec.
    change (StaticFunction.call _ _ ?R)
      with (ProxyLayer._eval inputs labels R).
    rewrite _eval_run. repeat split.
Qed.

(** X6: after [build_program('predict')] on a reachable helper,
    [input_vars] and [output_vars] are those of this build, while
    [label_vars], [loss_vars] and [metric_vars] are what they were before
    it (those of an earlier 'train' or 'eval' build, if any); the model is
    called once and the loss and the metrics are not called. *)
Theorem build_program_predict_variables (self : ProgramHelper.t) :
  reachable self ->
  let proxy := proxy_layer self in
  let f := mode_function "_predict" proxy in
  let inputs := map data (inputs_spec self) in
  let run := build_program "predict" self in
  ProxyLayer.input_vars (proxy_layer (final run)) = inputs
  /\ ProxyLayer.output_vars (proxy_layer (final run))
     = forward (ProxyLayer.inner_layer proxy) inputs
  /\ ProxyLayer.label_vars (proxy_layer (final run))
     = ProxyLayer.label_vars proxy
  /\ ProxyLayer.loss_vars (proxy_layer (final run))
     = ProxyLayer.loss_vars proxy
  /\ ProxyLayer.metric_vars (proxy_layer (final run))
     = ProxyLayer.metric_vars proxy
  /\ events run =
       [logger_info "start to build program for mode = predict.";
        call_to_static f [inputs_spec self];
        read_concrete_program (StaticFunction f [inputs_spec self]);
        call_inner_layer (ProxyLayer.inner_layer proxy) inputs].
Proof.
  intros Hr proxy f inputs run. subst run.
  destruct (reachable_ok self Hr) as [_ Hok].
  pose proof (reachable_no_cache self "predict" Hr) as Hc.
  rewrite (build_program_traced "predict" self) by (auto; set_solver).
  cbv zeta.
  change (input_spec_of "predict" self) with [inputs_spec self].
  change (StaticFunction.call _ _ ?R) with (ProxyLayer._predict inputs R).
  rewrite _predict_run. repeat split.
Qed.

(** X8: [static_func()] is read-only on every helper: it changes nothing
    and calls nothing; it either fails with the assertion failure, or the
    mode of the proxy layer is valid and it returns what [getattr] finds
    for ['_' + mode].  It never fails for a missing attribute. *)
Theorem static_func_read_only (self : ProgramHelper.t) :
  final (static_func self) = self
  /\ events (static_func self) = []
  /\ (outcome (static_func self) = Raise please_call_build_program
      \/ exists m,
           ProxyLayer.mode (proxy_layer self) = Some m
           /\ m ∈ modes
           /\ outcome (static_func self)
              = Return (mode_function ("_" +:+ m) (proxy_layer self))).
Proof.
  destruct (ProxyLayer.mode (proxy_layer self)) as [m|] eqn:Hmode.
  - destruct (decide (m ∈ modes)) as [Hin | Hbad].
    + rewrite (static_func_run self m Hmode Hin).
      repeat split. right. exists m. repeat split. exact Hin.
    + rewrite static_func_raises; [repeat split; left; reflexivity |].
      intros m' Hm'. rewrite Hmode in Hm'. injection Hm' as <-. exact Hbad.
  - rewrite static_func_raises; [repeat split; left; reflexivity |].
    intros m' Hm'. rewrite Hmode in Hm'. discriminate Hm'.
Qed.

(** X9: on a reachable helper the proxy layer is in one of two states.
    Either its mode is [None], and then no attribute is bound and the five
    variable lists are empty; or its mode is a valid mode [m], and then
    ['_' + m] is bound to a static function made with the [input_spec] of
    [m], which is what [static_func()] returns. *)
Theorem reachable_mode_is_built (self : ProgramHelper.t) :
  reachable self ->
  (ProxyLayer.mode (proxy_layer self) = None ->
     ProxyLayer.attrs (proxy_layer self) = ∅
     /\ ProxyLayer.input_vars (proxy_layer self) = []
     /\ ProxyLayer.label_vars (proxy_layer self) = []
     /\ ProxyLayer.output_vars (proxy_layer self) = []
     /\ ProxyLayer.loss_vars (proxy_layer self) = []
     /\ ProxyLayer.metric_vars (proxy_layer self) = [])
  /\ (forall m,
        ProxyLayer.mode (proxy_layer self) = Some m ->
        m ∈ modes
        /\ exists f,
             ProxyLayer.attrs (proxy_layer self) !! ("_" +:+ m)
               = Some (StaticFunction f (input_spec_of m self))
             /\ static_func self
                = (Return (StaticFunction f (input_spec_of m self)),
                   self, [])).
Proof.
  intros Hr. destruct (reachable_mode_bound_settled self Hr) as [Hb _].
  unfold mode_bound in Hb.
  destruct (ProxyLayer.mode (proxy_layer self)) as [m|] eqn:Hmode.
  - split; [discriminate |]. intros m' [= <-].
    destruct Hb as (Hin & f & Hattr). split; [exact Hin |].
    exists f. split; [exact Hattr |].
    rewrite (static_func_run self m Hmode Hin).
    unfold mode_function. rewrite Hattr. reflexivity.
  - split; [| discriminate]. intros _.
    destruct Hb as (Hattrs & Hi & Hl & Ho & Hlo & Hm).
    repeat split; assumption.
Qed.

End ProgramHelperLife.

(** ** set_mode, and traces that start from stale variables *)
Section SetModeFacts.
Context {Sg : Signature} {Fw : Framework Sg}.
Import ProgramHelper.

(** X11: [set_mode] does not build anything.  It accepts a valid mode,
    sets [training] exactly when the mode is 'train' and touches nothing
    else of the proxy layer; if ['_' + mode] was not bound by
    [build_program], [static_func()] then returns the plain method, and
    [concrete_program], [main_program] and [startup_program] fail for the
    attribute [concrete_program] that a plain method does not have. *)
Theorem set_mode_without_build_program m training
    (self : ProgramHelper.t) :
  m ∈ modes ->
  ProxyLayer.attrs (proxy_layer self) !! ("_" +:+ m) = None ->
  let run :=
    Training.set_mode (Some m) (Training.Build (proxy_layer self) training) in
  let self' := with_proxy_layer (Training.proxy (final run)) self in
  outcome run = Return tt
  /\ events run = []
  /\ Training.training (final run) = bool_decide (m = "train")
  /\ Training.proxy (final run)
     = ProxyLayer.with_mode (Some m) (proxy_layer self)
  /\ static_func self' = (Return (BoundMethod ("_" +:+ m)), self', [])
  /\ concrete_program self'
     = (Raise (AttributeError "concrete_program"), self', [])
  /\ main_program self'
     = (Raise (AttributeError "concrete_program"), self', [])
  /\ startup_program self'
     = (Raise (AttributeError "concrete_program"), self', []).
Proof.
  intros Hin Hattr run self'. subst run.
  unfold Training.set_mode, bind, modify, final, outcome, events in *.
  cbn [fst snd app Training.proxy Training.training] in *.
  assert (static_func self' = (Return (BoundMethod ("_" +:+ m)), self', []))
    as Hs.
  { rewrite (static_func_run self' m eq_refl Hin).
    unfold mode_function. subst self'.
    cbn [proxy_layer with_proxy_layer ProxyLayer.attrs ProxyLayer.with_mode].
    rewrite Hattr. reflexivity. }
  assert (concrete_program self'
          = (Raise (AttributeError "concrete_program"), self', [])) as Hcp.
  { unfold concrete_program. unfold bind. rewrite Hs.
    unfold on_proxy_layer, zoom, StaticFunction.concrete_program, raise.
    rewrite set_proxy_layer_id. reflexivity. }
  repeat split; try assumption.
  - apply bool_decide_ext. split; [intros [= ->] | intros ->]; reflexivity.
  - unfold main_program. apply bind_Raise. exact Hcp.
  - unfold startup_program. apply bind_Raise. exact Hcp.
Qed.

(** X12: a 'train' or 'eval' trace overwrites all five variable lists:
    from two proxy layers that wrap the same layer, loss function and
    metrics, [_train] (and [_eval]) on the same inputs and labels make
    the same calls and leave the same five lists, whatever the lists held
    before. *)
Theorem _train_ignores_previous_variables inputs labels
    (p q : ProxyLayer.t) :
  ProxyLayer.inner_layer q = ProxyLayer.inner_layer p ->
  ProxyLayer.loss_func q = ProxyLayer.loss_func p ->
  ProxyLayer.metrics q = ProxyLayer.metrics p ->
  same_vars (final (ProxyLayer._train inputs labels p))
            (final (ProxyLayer._train inputs labels q))
  /\ events (ProxyLayer._train inputs labels p)
     = events (ProxyLayer._train inputs labels q)
  /\ same_vars (final (ProxyLayer._eval inputs labels p))
               (final (ProxyLayer._eval inputs labels q))
  /\ events (ProxyLayer._eval inputs labels p)
     = events (ProxyLayer._eval inputs labels q).
Proof.
  intros Hl Hf Hm. rewrite ?_train_run, ?_eval_run.
  unfold final, events, same_vars, after_forward_loss_metrics,
    loss_events, metric_events.
  cbn. rewrite Hl, Hf, Hm. repeat split.
Qed.
End SetModeFacts.

(** ** Runs of the further properties on the concrete framework *)

Lemma toy_built_reachable mode :
  reachable (final (ProgramHelper.build_program mode Toy.helper)).
Proof. apply reachable_build_program, reachable_init. Qed.

Lemma train_valid : "train" ∈ modes.
Proof. unfold modes. set_solver. Qed.

Lemma reachable_never_cached_witness :
  BuildInfo.has_cache
    (ProgramHelper.build_info
       (final (ProgramHelper.build_program "train" Toy.helper)))
    "train" = false.
Proof.
  apply (reachable_never_cached
           (final (ProgramHelper.build_program "train" Toy.helper)) "train").
  apply toy_built_reachable.
Defined.

Lemma build_program_cache_hit_witness :
  ProgramHelper.build_program "train" cached_helper =
    (Return tt, cached_helper,
     [logger_info
        "Already build program with mode = train, use cached program."]).
Proof.
  apply (build_program_cache_hit "train" cached_helper).
  - apply train_valid.
  - vm_compute. reflexivity.
Defined.

Lemma build_program_train_eval_variables_witness :
  let built := final (ProgramHelper.build_program "train" Toy.helper) in
  ProxyLayer.input_vars (ProgramHelper.proxy_layer built) = ["x"]
  /\ ProxyLayer.label_vars (ProgramHelper.proxy_layer built) = ["y"]
  /\ ProxyLayer.output_vars (ProgramHelper.proxy_layer built) = ["net.out"]
  /\ ProxyLayer.loss_vars (ProgramHelper.proxy_layer built) = ["mse.loss"]
  /\ ProxyLayer.metric_vars (ProgramHelper.proxy_layer built) = ["acc.value"].
Proof.
  destruct (build_program_train_eval_variables "train" Toy.helper)
    as (Hi & Hl & Ho & Hlo & Hm & _).
  - apply reachable_init.
  - left. reflexivity.
  - exact (conj Hi (conj Hl (conj Ho (conj Hlo Hm)))).
Defined.

Lemma build_program_predict_variables_witness :
  let trained := final (ProgramHelper.build_program "train" Toy.helper) in
  let built := final (ProgramHelper.build_program "predict" trained) in
  ProxyLayer.input_vars (ProgramHelper.proxy_layer built) = ["x"]
  /\ ProxyLayer.label_vars (ProgramHelper.proxy_layer built)
     = ProxyLayer.label_vars (ProgramHelper.proxy_layer trained)
  /\ ProxyLayer.loss_vars (ProgramHelper.proxy_layer built)
     = ProxyLayer.loss_vars (ProgramHelper.proxy_layer trained).
Proof.
  destruct (build_program_predict_variables
              (final (ProgramHelper.build_program "train" Toy.helper)))
    as (Hi & _ & Hl & Hlo & _).
  - apply toy_built_reachable.
  - exact (conj Hi (conj Hl Hlo)).
Defined.

Lemma reachable_mode_is_built_witness :
  ProxyLayer.attrs (ProgramHelper.proxy_layer Toy.helper) = ∅
  /\ "eval" ∈ modes.
Proof.
  split.
  - apply (reachable_mode_is_built Toy.helper); [apply reachable_init |].
    reflexivity.
  - apply (reachable_mode_is_built
             (final (ProgramHelper.build_program "eval" Toy.helper))).
    + apply toy_built_reachable.
    + vm_compute. reflexivity.
Defined.


Lemma set_mode_without_build_program_witness :
  let run :=
    Training.set_mode (Some "train")
      (Training.Build (ProgramHelper.proxy_layer Toy.helper) false) in
  let self' :=
    ProgramHelper.with_proxy_layer (Training.proxy (final run)) Toy.helper in
  Training.training (final run) = true
  /\ ProgramHelper.concrete_program self'
     = (Raise (AttributeError "concrete_program"), self', []).
Proof.
  destruct (set_mode_without_build_program "train" false Toy.helper)
    as (_ & _ & Ht & _ & _ & Hcp & _).
  - apply train_valid.
  - reflexivity.
  - exact (conj Ht Hcp).
Defined.

Lemma _train_ignores_previous_variables_witness :
  same_vars
    (final (ProxyLayer._train (Sg := Toy.sg) ["x"] ["y"]
              (ProgramHelper.proxy_layer Toy.helper)))
    (final (ProxyLayer._train (Sg := Toy.sg) ["x"] ["y"]
              (ProxyLayer.with_input_vars (Sg := Toy.sg) ["stale"]
                 (ProgramHelper.proxy_layer Toy.helper)))).
Proof.
  apply (_train_ignores_previous_variables (Sg := Toy.sg) ["x"] ["y"]
           (ProgramHelper.proxy_layer Toy.helper)
           (ProxyLayer.with_input_vars (Sg := Toy.sg) ["stale"]
              (ProgramHelper.proxy_layer Toy.helper)));
    reflexivity.
Defined.
